(** * apt-install-docs: a shallow embedding of [apt_install_docs/__init__.py]

    The program walks the packages of an apt cache, and for every installed
    package marks for installation the [-doc] packages that its installed
    version suggests and that are not installed yet ([find]); it then
    lists the pending changes and asks for confirmation ([describe]),
    commits them ([install]), all driven by [main].

    The apt cache is an object of the python-apt library.  Its read-only
    part (packages, versions, suggestion relations) is modelled by
    immutable records; its mutable part (the marks of the dependency
    cache) together with the console is the state of a small state and
    exception monad in which the four functions of the module are written. *)

From Stdlib Require Import String Ascii ZArith.
From stdpp Require Import gmap strings list sorting.

Local Open Scope Z_scope.

(** ** Python strings *)

Module Py.

(** [s.endswith(suffix)]: the last [len(suffix)] characters of [s] are
    [suffix]. *)
Definition endswith (s suffix : string) : bool :=
  let n := String.length s in
  let m := String.length suffix in
  (m <=? n)%nat && String.eqb (String.substring (n - m) m s) suffix.

(** [s.startswith(prefix)]. *)
Definition startswith (s prefix : string) : bool := String.prefix prefix s.

(** [c.lower()] on one character of the ASCII range: [A]..[Z] are moved
    to [a]..[z], every other byte is kept. *)
Definition lower_ascii (c : ascii) : ascii :=
  let n := nat_of_ascii c in
  if ((65 <=? n) && (n <=? 90))%nat then ascii_of_nat (n + 32) else c.

(** [s.lower()]. *)
Fixpoint lower (s : string) : string :=
  match s with
  | EmptyString => EmptyString
  | String c s' => String (lower_ascii c) (lower s')
  end.

(** The truth value of a list: a list is true when it is not empty. *)
Definition truthy {A} (l : list A) : bool :=
  match l with
  | [] => false
  | _ :: _ => true
  end.

(** [sep.join(ls)]. *)
Definition join (sep : string) (ls : list string) : string :=
  String.concat sep ls.

(** The newline that [print] appends. *)
Definition nl : string := String "010"%char EmptyString.

(** Insertion of [x] in a list sorted by [lt], after the elements that
    are not greater than it. *)
Fixpoint insert_sorted {A} (lt : A → A → bool) (x : A) (l : list A) : list A :=
  match l with
  | [] => [x]
  | y :: l' => if lt x y then x :: y :: l' else y :: insert_sorted lt x l'
  end.

(** [sorted(l)]: a stable sort that only uses [<] on the elements. *)
Definition sorted {A} (lt : A → A → bool) (l : list A) : list A :=
  foldl (λ acc x, insert_sorted lt x acc) [] l.

End Py.

(** ** The apt cache: read-only part *)

(** A package, as far as its identity goes: [name] is the name with the
    architecture qualifier when there is one, [shortname] the name without
    it.  These are the two name attributes of [apt.package.Package] that
    the program reads. *)
Record Package := mkPackage {
  name : string;
  shortname : string;
}.

Global Instance Package_eq_dec : EqDecision Package.
Proof. solve_decision. Defined.

Global Instance Package_countable : Countable Package :=
  inj_countable'
    (λ p, (name p, shortname p))
    (λ t, mkPackage t.1 t.2)
    (λ p, match p with mkPackage _ _ => eq_refl end).

(** A version object found among the targets of a dependency: the package
    it belongs to ([dvers.package]), its version string, and whether it is
    the installed version of that package ([Version.is_installed]). *)
Record TargetVersion := mkTargetVersion {
  package : Package;
  target_version : string;
  is_installed : bool;
}.

(** An or-group of a [Suggests] field, such as [foo (>= 2) | bar], given by
    the versions that can satisfy it. *)
Record Dependency := mkDependency {
  target_versions : list TargetVersion;
}.

(** [dep.installed_target_versions]: the target versions that are
    installed. *)
Definition installed_target_versions (dep : Dependency) : list TargetVersion :=
  filter (λ tv, is_installed tv = true) (target_versions dep).

(** A version of a package with its list of suggestion relations. *)
Record Version := mkVersion {
  version : string;
  suggests : list Dependency;
}.

(** An entry of the cache: a package, its installed version ([None] when
    the package is not installed) and all its known versions. *)
Record CachePackage := mkCachePackage {
  pkg : Package;
  installed : option Version;
  versions : list Version;
}.

(** The cache, in iteration order. *)
Abbreviation Cache := (list CachePackage).

(** ** The apt cache: marks *)

(** What the dependency cache plans for a package. *)
Inductive ModeList := ModeDelete | ModeKeep | ModeInstall.

Global Instance ModeList_eq_dec : EqDecision ModeList.
Proof. solve_decision. Defined.

Record StateCache := mkStateCache {
  mode : ModeList;
  auto : bool;
}.

Global Instance StateCache_eq_dec : EqDecision StateCache.
Proof. solve_decision. Defined.

(** A package without an entry is kept as it is. *)
Abbreviation DepCache := (gmap Package StateCache).

Definition marked_install (dc : DepCache) (p : Package) : bool :=
  match dc !! p with
  | Some st => bool_decide (mode st = ModeInstall)
  | None => false
  end.

Definition marked_delete (dc : DepCache) (p : Package) : bool :=
  match dc !! p with
  | Some st => bool_decide (mode st = ModeDelete)
  | None => false
  end.

Definition marked_keep (dc : DepCache) (p : Package) : bool :=
  match dc !! p with
  | Some st => bool_decide (mode st = ModeKeep)
  | None => true
  end.

Definition is_auto_installed (dc : DepCache) (p : Package) : bool :=
  match dc !! p with
  | Some st => auto st
  | None => false
  end.

(** ** The monad of the program *)

Inductive exn :=
| KeyError (key : string)
| EOFError
| AptError (msg : string).

Inductive result (A : Type) :=
| Ok (a : A)
| Raise (e : exn).
Arguments Ok {A} a.
Arguments Raise {A} e.

(** The state: the marks of the cache, the lines still to be read from
    standard input, the text written to standard output so far, and the
    change sets handed to the package manager for installation. *)
Record World := mkWorld {
  depcache : DepCache;
  stdin : list string;
  stdout : string;
  committed : list (list Package);
}.

(** A computation returns a value or raises; either way the state it has
    reached stays. *)
Definition M (A : Type) : Type := World → result A * World.

Definition ret {A} (a : A) : M A := λ w, (Ok a, w).

Definition raise {A} (e : exn) : M A := λ w, (Raise e, w).

Definition bind {A B} (c : M A) (k : A → M B) : M B :=
  λ w, match c w with
       | (Ok a, w') => k a w'
       | (Raise e, w') => (Raise e, w')
       end.

Definition lift {A} (r : result A) : M A := λ w, (r, w).

Notation "'let*' x ':=' c 'in' k" := (bind c (λ x, k))
  (at level 10, x name, c at level 100, k at level 200, only parsing).
Notation "c >> k" := (bind c (λ _, k))
  (at level 65, right associativity, only parsing).

(** [for x in l: body(x)], where [continue] is the end of [body]. *)
Fixpoint for_each {A} (l : list A) (body : A → M unit) : M unit :=
  match l with
  | [] => ret tt
  | x :: l' => body x >> for_each l' body
  end.

(** ** The operations of python-apt that the program calls *)

(** [pkg.mark_install(from_user=...)]: the package is marked for
    installation, as automatically installed unless the request comes from
    the user.  What the resolver of the library may add to the change set
    on top of that is not part of the model. *)
Definition mark_install (p : Package) (from_user : bool) : M unit :=
  λ w, (Ok tt,
        mkWorld (<[p := mkStateCache ModeInstall (negb from_user)]> (depcache w))
                (stdin w) (stdout w) (committed w)).

(** [pkg.versions[key]] with a version object as key: the first version
    of the list with the version string of the key, [KeyError] when there
    is none. *)
Definition versions_getitem (vs : list Version) (key : Version) : result Version :=
  match List.find (λ v, String.eqb (version v) (version key)) vs with
  | Some v => Ok v
  | None => Raise (KeyError (version key))
  end.

(** [cache.get_changes()]: the packages of the cache that are not marked
    keep, in cache order. *)
Definition get_changes (cache : Cache) : M (list Package) :=
  λ w, (Ok (filter (λ p, marked_keep (depcache w) p = false) (pkg <$> cache)), w).

(** [cache.commit(...)]: the pending changes go to the package manager. *)
Definition commit (cache : Cache) : M unit :=
  let* changes := get_changes cache in
  λ w, (Ok tt, mkWorld (depcache w) (stdin w) (stdout w) (committed w ++ [changes])).

(** [print(s, end=e)] and [print(s)]. *)
Definition print_end (s e : string) : M unit :=
  λ w, (Ok tt, mkWorld (depcache w) (stdin w) (stdout w +:+ s +:+ e) (committed w)).

Definition print (s : string) : M unit := print_end s Py.nl.

(** [input()]: the next line of standard input, without its newline;
    [EOFError] at the end of the input. *)
Definition input : M string :=
  λ w, match stdin w with
       | [] => (Raise EOFError, w)
       | line :: rest => (Ok line, mkWorld (depcache w) rest (stdout w) (committed w))
       end.

(** ** [find] *)

(** The body of the innermost loop: one target version of a relation. *)
Definition find_target (dvers : TargetVersion) : M unit :=
  if Py.endswith (shortname (package dvers)) "-doc"
  then mark_install (package dvers) false
  else ret tt.

(** The body of the loop over [pkg_version.suggests]: one relation. *)
Definition find_dep (dep : Dependency) : M unit :=
  if Py.truthy (installed_target_versions dep)
  then ret tt
  else for_each (target_versions dep) find_target.

(** The body of the loop over the cache: one package. *)
Definition find_pkg (p : CachePackage) : M unit :=
  match installed p with
  | None => ret tt
  | Some inst =>
      let* pkg_version := lift (versions_getitem (versions p) inst) in
      for_each (suggests pkg_version) find_dep
  end.

(** [find(cache)].  The action group of the source only batches the
    bookkeeping of the library; it has no counterpart here. *)
Definition find (cache : Cache) : M unit :=
  for_each cache find_pkg.

(** ** [describe], [install] and [main] *)

Section Program.

(** [textwrap.fill(text, break_on_hyphens=False, break_long_words=False,
    initial_indent='  ', subsequent_indent='  ')] of the Python library. *)
Variable textwrap_fill : string → string.

Definition describe (cache : Cache) (prompt : bool) : M bool :=
  let* changes := get_changes cache in
  if negb (Py.truthy changes)
  then
    print "All documentation packages are installed." >>
    ret false
  else
    print "The following documentation packages will be installed:" >>
    let* changes := get_changes cache in
    let pkgstr_nowrap :=
      Py.join " " (name <$> Py.sorted (λ p q, String.ltb (name p) (name q)) changes) in
    let pkgstr := textwrap_fill pkgstr_nowrap in
    print pkgstr >>
    if negb prompt then ret false
    else
      print_end "Do you want to continue? [Y/n] " "" >>
      let* line := input in
      let choice := Py.lower line in
      if negb (String.eqb choice "" || Py.startswith choice "y")
      then print "Abort." >> ret false
      else ret true.

(** [install(cache)]. *)
Definition install (cache : Cache) : M unit := commit cache.

(** The configuration of apt once the command line is parsed, as seen
    through [apt_pkg.config.find_b]. *)
Record Configuration := mkConfiguration {
  find_b : string → bool;
}.

(** [apt_pkg.parse_commandline(apt_pkg.config, options, argv)] for the
    option table of [main]: the positional arguments and the resulting
    configuration, or the error of the library. *)
Variable parse_commandline : list string → result (list string * Configuration).

(** The packages that [apt.cache.Cache(...)] and [cache.open()] find on
    the system. *)
Variable system_cache : Cache.

(** A cache that has just been opened has no pending change. *)
Definition Cache_open : M Cache :=
  λ w, (Ok system_cache, mkWorld ∅ (stdin w) (stdout w) (committed w)).

Definition __version__ : string := "0.0.1".

Definition version_notice : string :=
  "apt-install-docs " +:+ __version__ +:+ Py.nl +:+
  "Copyright (C) 2021  Joel Ray Holveck" +:+ Py.nl +:+
  Py.nl +:+
  "License GPLv3+: GNU GPL version 3 or later <https://gnu.org/licenses/gpl.html>." +:+ Py.nl +:+
  "This is free software: you are free to change and redistribute it." +:+ Py.nl +:+
  "There is NO WARRANTY, to the extent permitted by law.".

Definition main (argv : list string) : M Z :=
  let* parsed := lift (parse_commandline argv) in
  let arguments := parsed.1 in
  let config := parsed.2 in
  if Py.truthy arguments || find_b config "help"
  then print "TODO(joelh)" >> ret 0
  else if find_b config "version"
  then print version_notice >> ret 0
  else
    let dry_run := find_b config "APT::InstallDocs::DryRun" in
    let* cache := Cache_open in
    find cache >>
    let* should_install := describe cache (negb dry_run) in
    (if should_install then install cache else ret tt) >>
    ret 0.

End Program.

(** The usage text of the program: the docstring of the module. *)
Definition dq : string := String "034"%char EmptyString.

Definition usage : string :=
  "Usage: apt-install-docs [OPTION]..." +:+ Py.nl +:+
  "Install documentation packages that are suggested by installed packages." +:+ Py.nl +:+
  Py.nl +:+
  "If an installed package has a " +:+ dq +:+ "suggests" +:+ dq +:+ " dependency that's not already" +:+ Py.nl +:+
  "met, and that dependency has a package name ending in " +:+ dq +:+ "-doc" +:+ dq +:+ ", then" +:+ Py.nl +:+
  "install it." +:+ Py.nl +:+
  Py.nl +:+
  "For instance, if binutils is already installed but binutils-doc is not," +:+ Py.nl +:+
  "apt-install-docs will install it." +:+ Py.nl +:+
  Py.nl +:+
  "      -n, --dry-run      list documentation packages but do not install them" +:+ Py.nl +:+
  "                         (configurable as APT::InstallDocs::DryRun)" +:+ Py.nl +:+
  "      -c, --config-file  as with apt-get" +:+ Py.nl +:+
  "      -o, --option       as with apt-ghet" +:+ Py.nl +:+
  "      -h, --help         display this help and exit" +:+ Py.nl +:+
  "      -v, --version      output version information and exit" +:+ Py.nl +:+
  Py.nl.

(** ** Vocabulary of the statements *)

(** [dep] is a suggestion relation of the installed version of an installed
    package of the cache. *)
Definition suggested_by (cache : Cache) (dep : Dependency) : Prop :=
  ∃ p inst pkg_version,
    p ∈ cache ∧ installed p = Some inst ∧
    versions_getitem (versions p) inst = Ok pkg_version ∧
    dep ∈ suggests pkg_version.

(** [dep] offers the package [p]: one of its target versions belongs to it. *)
Definition offers (dep : Dependency) (p : Package) : Prop :=
  ∃ dvers, dvers ∈ target_versions dep ∧ package dvers = p.

(** The packages marked for installation, as a set. *)
Definition marked_set (dc : DepCache) : gset Package :=
  dom (filter (λ kv, mode kv.2 = ModeInstall) dc).

(** ** The marks of a run, as a list *)

(** The state that [mark_install(from_user=False)] gives a package. *)
Definition auto_install : StateCache := mkStateCache ModeInstall true.

Definition mark_all (l : list Package) (w : World) : World :=
  mkWorld (foldl (λ dc p, <[p := auto_install]> dc) (depcache w) l)
          (stdin w) (stdout w) (committed w).

Definition doc_targets (tvs : list TargetVersion) : list Package :=
  package <$> filter (λ tv, Py.endswith (shortname (package tv)) "-doc" = true) tvs.

Definition dep_marks (dep : Dependency) : list Package :=
  if Py.truthy (installed_target_versions dep) then []
  else doc_targets (target_versions dep).

Definition pkg_result (p : CachePackage) : result unit :=
  match installed p with
  | None => Ok tt
  | Some inst =>
      match versions_getitem (versions p) inst with
      | Ok _ => Ok tt
      | Raise e => Raise e
      end
  end.

Definition pkg_marks (p : CachePackage) : list Package :=
  match installed p with
  | None => []
  | Some inst =>
      match versions_getitem (versions p) inst with
      | Ok pkg_version => suggests pkg_version ≫= dep_marks
      | Raise _ => []
      end
  end.

Fixpoint cache_result (cache : Cache) : result unit :=
  match cache with
  | [] => Ok tt
  | p :: cache' =>
      match pkg_result p with
      | Ok _ => cache_result cache'
      | Raise e => Raise e
      end
  end.

Fixpoint cache_marks (cache : Cache) : list Package :=
  match cache with
  | [] => []
  | p :: cache' =>
      pkg_marks p ++
      match pkg_result p with
      | Ok _ => cache_marks cache'
      | Raise _ => []
      end
  end.

(** ** A small system *)

(** [augeas-lenses] is installed and suggests [augeas-doc], which is not;
    [binutils] is installed and suggests [binutils-doc], which is installed
    too; [gcc] is installed and suggests [gcc-doc | binutils-doc]; [vim] is
    not installed and would suggest [vim-doc]. *)
Module Scenario.

Definition augeas_lenses : Package := mkPackage "augeas-lenses" "augeas-lenses".
Definition augeas_doc : Package := mkPackage "augeas-doc" "augeas-doc".
Definition binutils : Package := mkPackage "binutils" "binutils".
Definition binutils_doc : Package := mkPackage "binutils-doc" "binutils-doc".
Definition gcc : Package := mkPackage "gcc" "gcc".
Definition gcc_doc : Package := mkPackage "gcc-doc" "gcc-doc".
Definition vim : Package := mkPackage "vim" "vim".
Definition vim_doc : Package := mkPackage "vim-doc" "vim-doc".

Definition augeas_doc_1_12 : TargetVersion := mkTargetVersion augeas_doc "1.12.0-1" false.
Definition binutils_doc_2_35 : TargetVersion := mkTargetVersion binutils_doc "2.35.2-2" true.
Definition gcc_doc_10 : TargetVersion := mkTargetVersion gcc_doc "5:10.1.0" false.
Definition vim_doc_8 : TargetVersion := mkTargetVersion vim_doc "2:8.2" false.

Definition suggests_augeas_doc : Dependency := mkDependency [augeas_doc_1_12].
Definition suggests_binutils_doc : Dependency := mkDependency [binutils_doc_2_35].
Definition suggests_gcc_doc : Dependency := mkDependency [gcc_doc_10; binutils_doc_2_35].
Definition suggests_vim_doc : Dependency := mkDependency [vim_doc_8].

Definition augeas_lenses_1_12 : Version := mkVersion "1.12.0-1" [suggests_augeas_doc].
Definition binutils_2_35 : Version := mkVersion "2.35.2-2" [suggests_binutils_doc].
Definition gcc_10 : Version := mkVersion "4:10.2.1-1" [suggests_gcc_doc].
Definition vim_8 : Version := mkVersion "2:8.2" [suggests_vim_doc].
Definition doc_version (v : string) : Version := mkVersion v [].

Definition cache : Cache :=
  [ mkCachePackage augeas_doc None [doc_version "1.12.0-1"];
    mkCachePackage augeas_lenses (Some augeas_lenses_1_12)
      [mkVersion "1.11.0-3" []; augeas_lenses_1_12];
    mkCachePackage binutils (Some binutils_2_35) [binutils_2_35];
    mkCachePackage binutils_doc (Some (doc_version "2.35.2-2")) [doc_version "2.35.2-2"];
    mkCachePackage gcc (Some gcc_10) [gcc_10];
    mkCachePackage gcc_doc None [doc_version "5:10.1.0"];
    mkCachePackage vim None [vim_8];
    mkCachePackage vim_doc None [doc_version "2:8.2"] ].

(** The system where every suggested documentation package is installed. *)
Definition cache_all_installed : Cache :=
  [ mkCachePackage binutils (Some binutils_2_35) [binutils_2_35];
    mkCachePackage binutils_doc (Some (doc_version "2.35.2-2")) [doc_version "2.35.2-2"] ].

(** A cache whose last package claims an installed version that its version
    list does not have. *)
Definition cache_damaged : Cache :=
  cache ++ [ mkCachePackage (mkPackage "make" "make") (Some (doc_version "4.3-4"))
               [doc_version "4.2-1"] ].

(** A cache that has just been opened, and a user who answers [Yes]. *)
Definition opened : World := mkWorld ∅ ["Yes"] "" [].

(** The same once [find] has run. *)
Definition scanned : World :=
  mkWorld {[ augeas_doc := mkStateCache ModeInstall true ]} ["Yes"] "" [].

(** What [textwrap.fill] does to a text that fits on one line. *)
Definition fill (s : string) : string := "  " +:+ s.

Definition help_requested : Configuration :=
  mkConfiguration (λ key, String.eqb key "help").

(** A command line parser that knows [--help] only. *)
Definition parse_help (argv : list string) : result (list string * Configuration) :=
  match argv with
  | [_; "--help"] => Ok ([], help_requested)
  | _ => Raise (AptError "Command line option is not understood")
  end.

End Scenario.

(** ** Vocabulary of the further statements *)

(** The packages that [cache.get_changes()] returns when the marks are
    [dc]. *)
Definition pending (cache : Cache) (dc : DepCache) : list Package :=
  filter (λ p, marked_keep dc p = false) (pkg <$> cache).



(** The command line asks for a run: no positional argument, neither the
    help nor the version option. *)
Definition asks_run (parsed : result (list string * Configuration)) (config : Configuration) : Prop :=
  parsed = Ok ([], config) ∧ find_b config "help" = false ∧ find_b config "version" = false.

(** Further systems and sessions. *)
Module Cases.

(** The small system, listed backwards. *)
Definition cache_backwards : Cache := reverse Scenario.cache.

(** [make] alone, with an installed version that its version list lacks. *)
Definition make_damaged : CachePackage :=
  mkCachePackage (mkPackage "make" "make") (Some (Scenario.doc_version "4.3-4"))
    [Scenario.doc_version "4.2-1"].

(** Standard input is at its end. *)
Definition scanned_at_eof : World :=
  mkWorld {[ Scenario.augeas_doc := mkStateCache ModeInstall true ]} [] "" [].

(** The user answers [no]. *)
Definition scanned_no : World :=
  mkWorld {[ Scenario.augeas_doc := mkStateCache ModeInstall true ]} ["no"; "y"] "" [].

(** Two pending packages, the later one in the cache first by name. *)
Definition two_pending : World :=
  mkWorld {[ Scenario.gcc_doc := mkStateCache ModeInstall true;
             Scenario.augeas_doc := mkStateCache ModeInstall true ]} [] "" [].

Definition run_requested (dry_run : bool) : Configuration :=
  mkConfiguration (λ key, dry_run && String.eqb key "APT::InstallDocs::DryRun").

Definition parse_run (dry_run : bool) (argv : list string) :
    result (list string * Configuration) :=
  Ok ([], run_requested dry_run).

Definition version_requested : Configuration :=
  mkConfiguration (λ key, String.eqb key "version").

End Cases.

(** ** Strings *)

Lemma substring_all (s : string) :
  String.substring 0 (String.length s) s = s.
Proof. induction s as [|c s IH]; simpl; [done | by rewrite IH]. Qed.

Lemma substring_drop (pre suf : string) :
  String.substring (String.length pre) (String.length suf) (pre +:+ suf) = suf.
Proof. induction pre as [|c pre IH]; simpl; [apply substring_all | exact IH]. Qed.

Lemma length_app (s1 s2 : string) :
  String.length (s1 +:+ s2) = (String.length s1 + String.length s2)%nat.
Proof. induction s1 as [|c s1 IH]; simpl; [done | by rewrite IH]. Qed.

Lemma substring_split (s : string) (k : nat) :
  (k ≤ String.length s)%nat →
  ∃ pre, s = pre +:+ String.substring k (String.length s - k) s.
Proof.
  revert k. induction s as [|c s IH]; intros k Hk; simpl in *.
  - exists "". by destruct k.
  - destruct k as [|k].
    + exists "". symmetry. apply (substring_all (String c s)).
    + destruct (IH k) as [pre Hpre]; [lia|].
      exists (String c pre).
      change (String c s = String c (pre +:+ String.substring k (String.length s - k) s)).
      by rewrite <- Hpre.
Qed.

(** [endswith] holds exactly of the strings that are something followed by
    the suffix. *)
Lemma endswith_spec (s suffix : string) :
  Py.endswith s suffix = true ↔ ∃ pre, s = pre +:+ suffix.
Proof.
  unfold Py.endswith. rewrite andb_true_iff, Nat.leb_le, String.eqb_eq. split.
  - intros [Hle Hsub].
    destruct (substring_split s (String.length s - String.length suffix)) as [pre Hpre];
      [lia|].
    exists pre. rewrite Hpre at 1. f_equal. rewrite <- Hsub at 3. f_equal. lia.
  - intros [pre ->]. rewrite length_app. split; [lia|].
    replace (String.length pre + String.length suffix - String.length suffix)%nat
      with (String.length pre) by lia.
    apply substring_drop.
Qed.

(** ** The runs of [find] *)

Lemma mark_all_nil w : mark_all [] w = w.
Proof. by destruct w. Qed.

Lemma mark_all_app l1 l2 w : mark_all (l1 ++ l2) w = mark_all l2 (mark_all l1 w).
Proof. unfold mark_all. simpl. by rewrite foldl_app. Qed.

Lemma lookup_foldl_insert (l : list Package) (dc : DepCache) (p : Package) :
  foldl (λ dc p, <[p := auto_install]> dc) dc l !! p
  = if decide (p ∈ l) then Some auto_install else dc !! p.
Proof.
  revert dc. induction l as [|x l IH]; intros dc.
  - destruct (decide (p ∈ [])) as [Hin|Hin]; [by apply elem_of_nil in Hin | done].
  - change (foldl (λ dc p, <[p := auto_install]> dc) (<[x := auto_install]> dc) l !! p
            = if decide (p ∈ x :: l) then Some auto_install else dc !! p).
    rewrite IH. destruct (decide (p = x)) as [->|Hne].
    + rewrite lookup_insert_eq, (decide_True (P := x ∈ x :: l)) by apply list_elem_of_here.
      by destruct (decide (x ∈ l)).
    + rewrite lookup_insert_ne by done.
      destruct (decide (p ∈ l)) as [Hin|Hin].
      * rewrite decide_True; [done | by apply list_elem_of_further].
      * rewrite decide_False; [done | by intros [?|?]%elem_of_cons].
Qed.

Lemma lookup_mark_all l w p :
  depcache (mark_all l w) !! p
  = if decide (p ∈ l) then Some auto_install else depcache w !! p.
Proof. apply lookup_foldl_insert. Qed.

Lemma find_target_run dvers w :
  find_target dvers w = (Ok tt, mark_all (doc_targets [dvers]) w).
Proof.
  unfold find_target, doc_targets. rewrite filter_cons, filter_nil.
  destruct (Py.endswith _ _) eqn:E.
  - rewrite decide_True by done. reflexivity.
  - rewrite decide_False by congruence. simpl. unfold ret. by rewrite mark_all_nil.
Qed.

Lemma doc_targets_cons dvers tvs :
  doc_targets (dvers :: tvs) = doc_targets [dvers] ++ doc_targets tvs.
Proof.
  unfold doc_targets. rewrite <- fmap_app. f_equal.
  rewrite !filter_cons, filter_nil. by destruct (decide _).
Qed.

Lemma find_targets_run tvs w :
  for_each tvs find_target w = (Ok tt, mark_all (doc_targets tvs) w).
Proof.
  revert w. induction tvs as [|dvers tvs IH]; intros w; cbn [for_each].
  - unfold ret. f_equal. symmetry. apply mark_all_nil.
  - unfold bind. rewrite find_target_run, IH, (doc_targets_cons dvers tvs).
    by rewrite mark_all_app.
Qed.

Lemma find_dep_run dep w :
  find_dep dep w = (Ok tt, mark_all (dep_marks dep) w).
Proof.
  unfold find_dep, dep_marks. destruct (Py.truthy _).
  - unfold ret. f_equal. symmetry. apply mark_all_nil.
  - apply find_targets_run.
Qed.

Lemma find_deps_run deps w :
  for_each deps find_dep w = (Ok tt, mark_all (deps ≫= dep_marks) w).
Proof.
  revert w. induction deps as [|dep deps IH]; intros w; cbn [for_each].
  - unfold ret. f_equal. symmetry. apply mark_all_nil.
  - unfold bind. rewrite find_dep_run, IH, bind_cons.
    by rewrite mark_all_app.
Qed.

Lemma find_pkg_run p w :
  find_pkg p w = (pkg_result p, mark_all (pkg_marks p) w).
Proof.
  unfold find_pkg, pkg_result, pkg_marks. destruct (installed p) as [inst|].
  - unfold bind, lift. destruct (versions_getitem _ _) as [v|e].
    + apply find_deps_run.
    + f_equal. symmetry. apply mark_all_nil.
  - unfold ret. f_equal. symmetry. apply mark_all_nil.
Qed.

Lemma find_run cache w :
  find cache w = (cache_result cache, mark_all (cache_marks cache) w).
Proof.
  unfold find. revert w.
  induction cache as [|p cache IH]; intros w; cbn [for_each cache_result cache_marks].
  - unfold ret. f_equal. symmetry. apply mark_all_nil.
  - unfold bind. rewrite find_pkg_run, mark_all_app.
    destruct (pkg_result p) as [[]|e].
    + apply IH.
    + reflexivity.
Qed.

(** ** Which packages a run marks *)

Lemma truthy_false {A} (l : list A) : Py.truthy l = false ↔ l = [].
Proof. by destruct l. Qed.

Lemma elem_of_doc_targets p tvs :
  p ∈ doc_targets tvs ↔
  Py.endswith (shortname p) "-doc" = true ∧ ∃ dvers, dvers ∈ tvs ∧ package dvers = p.
Proof.
  unfold doc_targets. rewrite list_elem_of_fmap. split.
  - intros (dvers & -> & [Hdoc Hin]%list_elem_of_filter). eauto.
  - intros (Hdoc & dvers & Hin & <-). exists dvers.
    by rewrite list_elem_of_filter.
Qed.

Lemma elem_of_dep_marks p dep :
  p ∈ dep_marks dep ↔
  Py.endswith (shortname p) "-doc" = true ∧ offers dep p ∧
  installed_target_versions dep = [].
Proof.
  unfold dep_marks, offers.
  destruct (Py.truthy (installed_target_versions dep)) eqn:E.
  - split; [by intros ?%elem_of_nil|].
    intros (_ & _ & Hnil). rewrite Hnil in E. discriminate.
  - apply truthy_false in E. rewrite elem_of_doc_targets. tauto.
Qed.

Lemma elem_of_pkg_marks p q :
  p ∈ pkg_marks q ↔
  ∃ inst pkg_version dep,
    installed q = Some inst ∧ versions_getitem (versions q) inst = Ok pkg_version ∧
    dep ∈ suggests pkg_version ∧ p ∈ dep_marks dep.
Proof.
  unfold pkg_marks. destruct (installed q) as [inst|].
  - destruct (versions_getitem (versions q) inst) as [v|e] eqn:Hget.
    + rewrite list_elem_of_bind. split.
      * intros (dep & ? & ?). by exists inst, v, dep.
      * intros (? & ? & dep & [= <-] & Hget' & ? & ?).
        rewrite Hget in Hget'. injection Hget' as <-. eauto.
    + split; [by intros ?%elem_of_nil|].
      intros (? & ? & ? & [= <-] & Hget' & _). congruence.
  - split; [by intros ?%elem_of_nil|]. by intros (? & ? & ? & ? & _).
Qed.

(** Whatever [find] marks, it marks for a relation of the cache. *)
Lemma elem_of_cache_marks_1 cache p :
  p ∈ cache_marks cache →
  ∃ dep, suggested_by cache dep ∧ p ∈ dep_marks dep.
Proof.
  induction cache as [|q cache IH]; cbn [cache_marks].
  - by intros ?%elem_of_nil.
  - intros [Hq|Hrest]%elem_of_app.
    + apply elem_of_pkg_marks in Hq as (inst & v & dep & ? & ? & ? & ?).
      exists dep. split; [|done].
      exists q, inst, v. split; [apply list_elem_of_here | done].
    + destruct (pkg_result q); [|by apply elem_of_nil in Hrest].
      destruct (IH Hrest) as (dep & (q' & inst & v & ? & ?) & ?).
      exists dep. split; [|done].
      exists q', inst, v. split; [by apply list_elem_of_further | done].
Qed.

(** When no lookup fails, every relation of the cache is scanned. *)
Lemma elem_of_cache_marks_2 cache p dep :
  cache_result cache = Ok tt →
  suggested_by cache dep → p ∈ dep_marks dep →
  p ∈ cache_marks cache.
Proof.
  intros Hok (q & inst & v & Hq & Hinst & Hget & Hdep) Hp.
  induction cache as [|q' cache IH]; [by apply elem_of_nil in Hq|].
  cbn [cache_marks cache_result] in *. apply elem_of_app.
  apply elem_of_cons in Hq as [<-|Hq].
  - left. apply elem_of_pkg_marks. by exists inst, v, dep.
  - right. destruct (pkg_result q') as [[]|e]; [by apply IH | discriminate].
Qed.

Lemma marked_install_mark_all l w p :
  marked_install (depcache (mark_all l w)) p = true ↔
  p ∈ l ∨ marked_install (depcache w) p = true.
Proof.
  unfold marked_install at 1. rewrite lookup_mark_all.
  destruct (decide (p ∈ l)) as [Hin|Hin].
  - split; [by left | done].
  - fold (marked_install (depcache w) p). tauto.
Qed.

Lemma mark_all_idem l w : mark_all l (mark_all l w) = mark_all l w.
Proof.
  assert (depcache (mark_all l (mark_all l w)) = depcache (mark_all l w)) as Hdc.
  { apply map_eq. intros p. rewrite !lookup_mark_all. by destruct (decide (p ∈ l)). }
  unfold mark_all at 1. unfold mark_all at 1 in Hdc. simpl in *. by rewrite Hdc.
Qed.

Lemma find_pkg_not_installed p w :
  installed p = None → find_pkg p w = (Ok tt, w).
Proof. intros H. unfold find_pkg. by rewrite H. Qed.


(** ** The claims on [find] *)

(** C1 (suffix filter).  Let [dep] be a suggestion relation of the installed
    version of an installed package of the cache, and [dvers] one of its
    target versions.  The scan of [dep] marks the package of [dvers] for
    installation exactly when its short name ends with [-doc] and no target
    version of [dep] is installed (a package that was marked before stays
    marked).  When [find] returns, such a package is marked, and the packages
    marked for installation are those that were so before and those that
    some relation of the cache marks in this way. *)
Theorem find_suffix_filter cache w w' dep dvers :
  find cache w = (Ok tt, w') →
  suggested_by cache dep →
  dvers ∈ target_versions dep →
  (∀ v, ∃ v',
     find_dep dep v = (Ok tt, v') ∧
     (marked_install (depcache v') (package dvers) = true ↔
      marked_install (depcache v) (package dvers) = true ∨
      (Py.endswith (shortname (package dvers)) "-doc" = true ∧
       installed_target_versions dep = [])))
  ∧ (Py.endswith (shortname (package dvers)) "-doc" = true ∧
     installed_target_versions dep = [] →
     marked_install (depcache w') (package dvers) = true)
  ∧ (∀ p,
       marked_install (depcache w') p = true ↔
       marked_install (depcache w) p = true ∨
       (Py.endswith (shortname p) "-doc" = true ∧
        ∃ dep', suggested_by cache dep' ∧ offers dep' p ∧
                installed_target_versions dep' = [])).
Proof.
  intros Hfind Hdep Hdvers. rewrite find_run in Hfind.
  injection Hfind as Hok <-.
  assert (offers dep (package dvers)) as Hoff by by exists dvers.
  split; [|split].
  - intros v. exists (mark_all (dep_marks dep) v). split; [apply find_dep_run|].
    rewrite marked_install_mark_all, elem_of_dep_marks. tauto.
  - intros [Hdoc Hnil]. apply marked_install_mark_all. left.
    apply (elem_of_cache_marks_2 _ _ dep); [done..|].
    by apply elem_of_dep_marks.
  - intros p. rewrite marked_install_mark_all. split.
    + intros [Hin|Hbefore]; [right | by left].
      apply elem_of_cache_marks_1 in Hin as (dep' & Hs & Hm).
      apply elem_of_dep_marks in Hm as (? & ? & ?). eauto.
    + intros [Hbefore|(Hdoc & dep' & Hs & Ho & Hnil)]; [by right | left].
      apply (elem_of_cache_marks_2 _ _ dep'); [done..|].
      by apply elem_of_dep_marks.
Qed.

(** C2 (skip if satisfied).  A relation with an installed target version is
    scanned without any effect: none of its target versions is marked,
    whatever their names.  In the result of [find], a package that only such
    relations offer has the mark it had before. *)
Theorem find_skips_satisfied cache w dep :
  installed_target_versions dep ≠ [] →
  (∀ v, find_dep dep v = (Ok tt, v))
  ∧ (∀ p,
       (∀ dep', suggested_by cache dep' → offers dep' p →
                installed_target_versions dep' ≠ []) →
       depcache (find cache w).2 !! p = depcache w !! p).
Proof.
  intros Hsat. split.
  - intros v. unfold find_dep.
    destruct (installed_target_versions dep); [done | reflexivity].
  - intros p Hall. rewrite find_run. cbn [snd]. rewrite lookup_mark_all.
    destruct (decide (p ∈ cache_marks cache)) as [Hin|Hin]; [|done].
    apply elem_of_cache_marks_1 in Hin as (dep' & Hs & Hm).
    apply elem_of_dep_marks in Hm as (? & ? & ?). by destruct (Hall dep').
Qed.

(** C3 (automatic flag).  Every package whose state [find] changes is, in
    the result, marked for installation with the automatic bit set. *)
Theorem find_marks_automatic cache w p :
  depcache (find cache w).2 !! p ≠ depcache w !! p →
  depcache (find cache w).2 !! p = Some (mkStateCache ModeInstall true)
  ∧ marked_install (depcache (find cache w).2) p = true
  ∧ is_auto_installed (depcache (find cache w).2) p = true.
Proof.
  unfold marked_install, is_auto_installed.
  rewrite find_run. cbn [snd]. rewrite lookup_mark_all.
  destruct (decide (p ∈ cache_marks cache)); [done|]. by intros [].
Qed.

(** C4 (idempotence).  A second run of [find] on the result of a first one
    returns as the first did and changes nothing; in particular the set of
    marked packages is the same after two runs as after one. *)
Theorem find_idempotent cache w :
  find cache (find cache w).2 = find cache w
  ∧ marked_set (depcache (find cache (find cache w).2).2)
    = marked_set (depcache (find cache w).2).
Proof.
  assert (find cache (find cache w).2 = find cache w) as H.
  { rewrite !find_run. cbn [snd]. by rewrite mark_all_idem. }
  split; [done | by rewrite H].
Qed.

(** C8 (installed packages only).  The packages without an installed
    version can be dropped from the cache without any change to what [find]
    does: whatever their versions suggest, they contribute no mark. *)
Theorem find_ignores_uninstalled cache w :
  find (filter (λ p, is_Some (installed p)) cache) w = find cache w.
Proof.
  unfold find. revert w. induction cache as [|p cache IH]; intros w; [done|].
  rewrite filter_cons. destruct (decide (is_Some (installed p))) as [Hp|Hp].
  - cbn [for_each]. unfold bind. destruct (find_pkg p w) as [[[]|e] w1]; [apply IH | done].
  - cbn [for_each]. unfold bind. rewrite find_pkg_not_installed.
    + apply IH.
    + destruct (installed p); [|done]. by destruct Hp.
Qed.

(** C10 (monotonicity).  [find] keeps every mark for installation, gives a
    package no other new mark than the one for installation, and so never
    schedules a removal. *)
Theorem find_monotone cache w p :
  (marked_install (depcache w) p = true →
   marked_install (depcache (find cache w).2) p = true)
  ∧ (marked_delete (depcache (find cache w).2) p = true →
     marked_delete (depcache w) p = true)
  ∧ (depcache (find cache w).2 !! p = depcache w !! p ∨
     marked_install (depcache (find cache w).2) p = true).
Proof.
  unfold marked_install, marked_delete.
  rewrite find_run. cbn [snd]. rewrite lookup_mark_all.
  destruct (decide (p ∈ cache_marks cache)); [|tauto].
  split; [done|]. split; [done|]. by right.
Qed.

(** The end-to-end scenario: [augeas-doc] is marked as automatically
    installed and nothing else is. *)
Example find_scenario :
  find Scenario.cache Scenario.opened = (Ok tt, Scenario.scanned).
Proof. vm_compute. reflexivity. Qed.

(** A failed lookup stops the scan with [KeyError]; the marks made until
    then stay. *)
Example find_scenario_damaged :
  find Scenario.cache_damaged Scenario.opened = (Raise (KeyError "4.3-4"), Scenario.scanned).
Proof. vm_compute. reflexivity. Qed.

Example find_scenario_all_installed :
  find Scenario.cache_all_installed Scenario.opened = (Ok tt, Scenario.opened).
Proof. vm_compute. reflexivity. Qed.

(** ** The answer to the prompt *)

Lemma lower_ascii_y c :
  Py.lower_ascii c = "y"%char ↔ c = "y"%char ∨ c = "Y"%char.
Proof.
  destruct c as [[] [] [] [] [] [] [] []]; vm_compute;
    (split; [intros H; first [discriminate H | auto] | intros [H|H]; first [discriminate H | reflexivity]]).
Qed.

Lemma accepted_spec line :
  String.eqb (Py.lower line) "" || Py.startswith (Py.lower line) "y" = true ↔
  line = "" ∨ ∃ c tail, line = String c tail ∧ (c = "y"%char ∨ c = "Y"%char).
Proof.
  destruct line as [|c tail].
  - split; [by left | done].
  - cbn [Py.lower]. unfold Py.startswith. cbn [String.eqb String.prefix orb].
    destruct (ascii_dec "y" (Py.lower_ascii c)) as [Hy|Hy].
    + symmetry in Hy. apply lower_ascii_y in Hy.
      split; [|by destruct (Py.lower tail)].
      intros _. right. by exists c, tail.
    + split; [done|]. intros [?|(c' & tail' & [= <- <-] & Hc)]; [done|].
      apply lower_ascii_y in Hc. congruence.
Qed.

(** The operations of the console and of the cache, unfolded. *)
Ltac unfold_describe :=
  unfold describe, bind, get_changes, print, print_end, input, ret.

(** ** The claims on [describe] and [main] *)

(** C5 (confirmation gating).  Without prompt [describe] returns false.
    With prompt, pending changes and a line on standard input, it returns
    true when the line is empty or starts with [y] or [Y], and false
    otherwise. *)
Theorem describe_confirmation textwrap_fill cache w line rest :
  stdin w = line :: rest →
  (get_changes cache w).1 ≠ Ok [] →
  (∀ v, (describe textwrap_fill cache false v).1 = Ok false)
  ∧ ∃ b, (describe textwrap_fill cache true w).1 = Ok b ∧
         (b = true ↔
          line = "" ∨
          ∃ c tail, line = String c tail ∧ (c = "y"%char ∨ c = "Y"%char)).
Proof.
  intros Hin Hchanges. split.
  - intros [dc sin sout com]. unfold_describe.
    simpl. by destruct (filter _ _).
  - destruct w as [dc sin sout com]. cbn [stdin] in Hin. subst sin.
    revert Hchanges. unfold_describe.
    simpl. destruct (filter _ _) as [|p l]; [done|]. intros _. simpl.
    destruct (String.eqb (Py.lower line) "" || Py.startswith (Py.lower line) "y")
      eqn:E; simpl.
    + exists true. split; [done|]. by rewrite <- accepted_spec.
    + exists false. split; [done|]. rewrite <- accepted_spec, E. done.
Qed.

(** C6 (no change).  When the cache has no pending change, [describe]
    prints that all documentation packages are installed and returns false;
    standard input is left as it is, whatever [prompt] is. *)
Theorem describe_no_changes textwrap_fill cache prompt w :
  (get_changes cache w).1 = Ok [] →
  describe textwrap_fill cache prompt w
  = (Ok false,
     mkWorld (depcache w) (stdin w)
             (stdout w +:+ "All documentation packages are installed." +:+ Py.nl)
             (committed w)).
Proof.
  destruct w as [dc sin sout com]. unfold_describe. simpl.
  intros [= ->]. reflexivity.
Qed.

(** C9 (no mutation).  [describe] leaves the marks of the cache, and so its
    pending changes, as they are, and hands nothing to the package
    manager. *)
Theorem describe_preserves_cache textwrap_fill cache prompt w :
  depcache (describe textwrap_fill cache prompt w).2 = depcache w
  ∧ get_changes cache (describe textwrap_fill cache prompt w).2
    = ((get_changes cache w).1, (describe textwrap_fill cache prompt w).2)
  ∧ committed (describe textwrap_fill cache prompt w).2 = committed w.
Proof.
  assert (depcache (describe textwrap_fill cache prompt w).2 = depcache w
          ∧ committed (describe textwrap_fill cache prompt w).2 = committed w) as [Hd Hc].
  { destruct w as [dc sin sout com]. unfold_describe.
    simpl. destruct (filter _ _) as [|p l]; [done|].
    simpl. destruct prompt; [|done]. simpl.
    destruct sin as [|line rest]; [done|]. simpl.
    by destruct (_ || _). }
  split; [done|]. split; [|done].
  unfold get_changes. cbn [fst]. by rewrite Hd.
Qed.

(** C7 (help).  With positional arguments or with the help option, [main]
    prints the placeholder [TODO(joelh)], which is not the usage text of the
    program, and returns 0. *)
Theorem main_help_prints_placeholder
    textwrap_fill parse_commandline system_cache argv arguments config w :
  parse_commandline argv = Ok (arguments, config) →
  arguments ≠ [] ∨ find_b config "help" = true →
  main textwrap_fill parse_commandline system_cache argv w
  = (Ok 0,
     mkWorld (depcache w) (stdin w) (stdout w +:+ "TODO(joelh)" +:+ Py.nl) (committed w))
  ∧ "TODO(joelh)" +:+ Py.nl ≠ usage.
Proof.
  intros Hparse Hhelp. split; [|by vm_compute].
  unfold main, bind, lift. rewrite Hparse. cbn [fst snd].
  assert (Py.truthy arguments || find_b config "help" = true) as ->.
  { destruct Hhelp as [Hargs| ->]; [by destruct arguments | apply orb_true_r]. }
  reflexivity.
Qed.

(** ** The theorems at work on the small system *)

(** The whole session: the scan, the listing, the answer [Yes]. *)
Example describe_scenario :
  (find Scenario.cache >> describe Scenario.fill Scenario.cache true) Scenario.opened
  = (Ok true,
     mkWorld {[ Scenario.augeas_doc := mkStateCache ModeInstall true ]} []
       ("The following documentation packages will be installed:" +:+ Py.nl +:+
        "  augeas-doc" +:+ Py.nl +:+
        "Do you want to continue? [Y/n] ")
       []).
Proof. vm_compute. reflexivity. Qed.

(** A dry run lists the same packages, asks nothing and installs nothing. *)
Example main_scenario_dry_run :
  main Scenario.fill
       (λ _, Ok ([], mkConfiguration (λ key, String.eqb key "APT::InstallDocs::DryRun")))
       Scenario.cache ["apt-install-docs"; "-n"] Scenario.opened
  = (Ok 0,
     mkWorld {[ Scenario.augeas_doc := mkStateCache ModeInstall true ]} ["Yes"]
       ("The following documentation packages will be installed:" +:+ Py.nl +:+
        "  augeas-doc" +:+ Py.nl)
       []).
Proof. vm_compute. reflexivity. Qed.

(** Case analysis on a membership in a list that is written out. *)
Ltac elements_of H :=
  repeat (apply elem_of_cons in H as [->|H]); [..|by apply elem_of_nil in H].

Lemma scenario_suggests_augeas_doc :
  suggested_by Scenario.cache Scenario.suggests_augeas_doc.
Proof.
  exists (mkCachePackage Scenario.augeas_lenses (Some Scenario.augeas_lenses_1_12)
            [mkVersion "1.11.0-3" []; Scenario.augeas_lenses_1_12]),
         Scenario.augeas_lenses_1_12, Scenario.augeas_lenses_1_12.
  split; [repeat constructor|]. split; [reflexivity|].
  split; [reflexivity | repeat constructor].
Defined.

Lemma find_suffix_filter_witness :
  find Scenario.cache Scenario.opened = (Ok tt, Scenario.scanned)
  ∧ suggested_by Scenario.cache Scenario.suggests_augeas_doc
  ∧ Scenario.augeas_doc_1_12 ∈ target_versions Scenario.suggests_augeas_doc
  ∧ marked_install (depcache Scenario.scanned) Scenario.augeas_doc = true
  ∧ (marked_install (depcache Scenario.scanned) Scenario.gcc_doc = true ↔
     marked_install (depcache Scenario.opened) Scenario.gcc_doc = true ∨
     (Py.endswith (shortname Scenario.gcc_doc) "-doc" = true ∧
      ∃ dep', suggested_by Scenario.cache dep' ∧ offers dep' Scenario.gcc_doc ∧
              installed_target_versions dep' = [])).
Proof.
  assert (find Scenario.cache Scenario.opened = (Ok tt, Scenario.scanned)) as H1
    by (vm_compute; reflexivity).
  assert (Scenario.augeas_doc_1_12 ∈ target_versions Scenario.suggests_augeas_doc) as H3
    by repeat constructor.
  destruct (find_suffix_filter Scenario.cache Scenario.opened Scenario.scanned
              Scenario.suggests_augeas_doc Scenario.augeas_doc_1_12
              H1 scenario_suggests_augeas_doc H3) as (_ & Hmarked & Hiff).
  split; [exact H1|]. split; [exact scenario_suggests_augeas_doc|].
  split; [exact H3|]. split; [|apply Hiff].
  apply Hmarked. split; reflexivity.
Defined.

(** Only [gcc] offers [gcc-doc], in a relation that [binutils-doc]
    satisfies. *)
Lemma scenario_gcc_doc_satisfied dep :
  suggested_by Scenario.cache dep → offers dep Scenario.gcc_doc →
  installed_target_versions dep ≠ [].
Proof.
  intros (p & inst & v & Hp & Hinst & Hget & Hdep) (dvers & Hdvers & Hpkg).
  elements_of Hp; cbn [installed] in Hinst; try discriminate Hinst;
    injection Hinst as <-; vm_compute in Hget; injection Hget as <-;
    cbn [suggests] in Hdep; elements_of Hdep;
    cbn [target_versions Scenario.suggests_augeas_doc Scenario.suggests_binutils_doc
         Scenario.suggests_gcc_doc] in Hdvers;
    elements_of Hdvers; try discriminate Hpkg;
    vm_compute; discriminate.
Qed.

Lemma find_skips_satisfied_witness :
  installed_target_versions Scenario.suggests_gcc_doc ≠ []
  ∧ Py.endswith (shortname Scenario.gcc_doc) "-doc" = true
  ∧ find_dep Scenario.suggests_gcc_doc Scenario.opened = (Ok tt, Scenario.opened)
  ∧ depcache (find Scenario.cache Scenario.opened).2 !! Scenario.gcc_doc
    = depcache Scenario.opened !! Scenario.gcc_doc.
Proof.
  assert (installed_target_versions Scenario.suggests_gcc_doc ≠ []) as H
    by (vm_compute; discriminate).
  destruct (find_skips_satisfied Scenario.cache Scenario.opened
              Scenario.suggests_gcc_doc H) as [Hscan Hfind].
  split; [exact H|]. split; [reflexivity|]. split; [apply Hscan|].
  apply Hfind. exact scenario_gcc_doc_satisfied.
Defined.

Lemma find_marks_automatic_witness :
  depcache (find Scenario.cache Scenario.opened).2 !! Scenario.augeas_doc
  ≠ depcache Scenario.opened !! Scenario.augeas_doc
  ∧ is_auto_installed (depcache (find Scenario.cache Scenario.opened).2)
      Scenario.augeas_doc = true.
Proof.
  assert (depcache (find Scenario.cache Scenario.opened).2 !! Scenario.augeas_doc
          ≠ depcache Scenario.opened !! Scenario.augeas_doc) as H
    by (vm_compute; discriminate).
  split; [exact H|].
  apply (find_marks_automatic Scenario.cache Scenario.opened Scenario.augeas_doc H).
Defined.

Lemma describe_confirmation_witness :
  stdin Scenario.scanned = ["Yes"]
  ∧ (get_changes Scenario.cache Scenario.scanned).1 ≠ Ok []
  ∧ (describe Scenario.fill Scenario.cache true Scenario.scanned).1 = Ok true.
Proof.
  assert (stdin Scenario.scanned = ["Yes"]) as H1 by reflexivity.
  assert ((get_changes Scenario.cache Scenario.scanned).1 ≠ Ok []) as H2
    by (vm_compute; discriminate).
  split; [exact H1|]. split; [exact H2|].
  destruct (describe_confirmation Scenario.fill Scenario.cache Scenario.scanned
              "Yes" [] H1 H2) as (_ & b & Hb & Hiff).
  rewrite Hb. f_equal. apply Hiff. right.
  exists "Y"%char, "es". split; [reflexivity | by right].
Defined.

Lemma describe_no_changes_witness :
  (get_changes Scenario.cache_all_installed Scenario.opened).1 = Ok []
  ∧ describe Scenario.fill Scenario.cache_all_installed true Scenario.opened
    = (Ok false,
       mkWorld ∅ ["Yes"]
               ("All documentation packages are installed." +:+ Py.nl) []).
Proof.
  assert ((get_changes Scenario.cache_all_installed Scenario.opened).1 = Ok []) as H
    by reflexivity.
  split; [exact H|].
  apply (describe_no_changes Scenario.fill Scenario.cache_all_installed true
           Scenario.opened H).
Defined.

Lemma main_help_prints_placeholder_witness :
  Scenario.parse_help ["apt-install-docs"; "--help"] = Ok ([], Scenario.help_requested)
  ∧ main Scenario.fill Scenario.parse_help Scenario.cache
         ["apt-install-docs"; "--help"] Scenario.opened
    = (Ok 0, mkWorld ∅ ["Yes"] ("TODO(joelh)" +:+ Py.nl) [])
  ∧ "TODO(joelh)" +:+ Py.nl ≠ usage.
Proof.
  assert (Scenario.parse_help ["apt-install-docs"; "--help"]
          = Ok ([], Scenario.help_requested)) as H by reflexivity.
  split; [exact H|].
  apply (main_help_prints_placeholder Scenario.fill Scenario.parse_help Scenario.cache
           ["apt-install-docs"; "--help"] [] Scenario.help_requested Scenario.opened H).
  right. reflexivity.
Defined.

(** ** Further properties of [find] *)

Lemma for_each_app {A} (l1 l2 : list A) (body : A → M unit) w :
  for_each (l1 ++ l2) body w = (for_each l1 body >> for_each l2 body) w.
Proof.
  revert w. induction l1 as [|x l1 IH]; intros w; [done|].
  change (for_each ((x :: l1) ++ l2) body w)
    with ((body x >> for_each (l1 ++ l2) body) w).
  cbn [for_each]. unfold bind.
  destruct (body x w) as [[[]|e] w1]; [|done].
  rewrite IH. reflexivity.
Qed.


Lemma versions_getitem_Raise vs key :
  (∀ v, v ∈ vs → version v ≠ version key) →
  versions_getitem vs key = Raise (KeyError (version key)).
Proof.
  intros Hnone. unfold versions_getitem.
  destruct (List.find _ vs) as [v|] eqn:Hfind; [|done].
  apply find_some in Hfind as [Hin Heq].
  apply list_elem_of_In in Hin. apply String.eqb_eq in Heq. by destruct (Hnone v).
Qed.

Lemma cache_result_Ok cache :
  cache_result cache = Ok tt ↔ ∀ p, p ∈ cache → pkg_result p = Ok tt.
Proof.
  induction cache as [|q cache IH]; cbn [cache_result].
  - split; [by intros _ p ?%elem_of_nil | done].
  - destruct (pkg_result q) as [[]|e] eqn:Hq.
    + rewrite IH. split.
      * intros H p [->|Hp]%elem_of_cons; [done | by apply H].
      * intros H p Hp. apply H. by apply list_elem_of_further.
    + split; [done|]. intros H. specialize (H q (list_elem_of_here _ _)). congruence.
Qed.

Lemma cache_marks_Ok cache :
  cache_result cache = Ok tt → cache_marks cache = cache ≫= pkg_marks.
Proof.
  induction cache as [|q cache IH]; [done|]. cbn [cache_result cache_marks].
  destruct (pkg_result q) as [[]|e]; [|done].
  intros H. by rewrite bind_cons, IH.
Qed.

Lemma mark_all_ext l1 l2 w :
  (∀ p, p ∈ l1 ↔ p ∈ l2) → mark_all l1 w = mark_all l2 w.
Proof.
  intros Hsame.
  assert (depcache (mark_all l1 w) = depcache (mark_all l2 w)) as Hdc.
  { apply map_eq. intros p. rewrite !lookup_mark_all.
    destruct (decide (p ∈ l1)) as [H1|H1], (decide (p ∈ l2)) as [H2|H2];
      try done; by apply Hsame in H1 || apply Hsame in H2. }
  unfold mark_all in *. cbn [depcache] in Hdc. by rewrite Hdc.
Qed.


(** X2.  At the first installed package whose installed version is not in
    its version list, [find] stops with the [KeyError] of that version; the
    marks made for the packages before it stay, the packages after it are
    not scanned. *)
Theorem find_stops_at_missing_version before p after inst w :
  (find before w).1 = Ok tt →
  installed p = Some inst →
  (∀ v, v ∈ versions p → version v ≠ version inst) →
  find (before ++ p :: after) w = (Raise (KeyError (version inst)), (find before w).2).
Proof.
  intros Hbefore Hinst Hnone. unfold find in *. rewrite for_each_app.
  unfold bind at 1. destruct (for_each before find_pkg w) as [[[]|e] w1]; [|done].
  cbn [for_each snd]. unfold bind at 1, find_pkg. rewrite Hinst.
  unfold bind, lift. by rewrite (versions_getitem_Raise _ _ Hnone).
Qed.

(** X3.  [find] writes nothing, reads nothing and installs nothing:
    standard output, standard input and the list of committed change sets
    are the same after it as before, also when it raises. *)
Theorem find_leaves_console cache w :
  stdin (find cache w).2 = stdin w
  ∧ stdout (find cache w).2 = stdout w
  ∧ committed (find cache w).2 = committed w.
Proof. by rewrite find_run. Qed.

(** X4.  Whether it returns or raises, [find] changes the state of a
    package only if the short name of the package ends with [-doc] and a
    suggestion relation of the installed version of an installed package
    offers it while none of the targets of that relation is installed. *)
Theorem find_changes_only_doc cache w p :
  depcache (find cache w).2 !! p ≠ depcache w !! p →
  Py.endswith (shortname p) "-doc" = true
  ∧ ∃ dep, suggested_by cache dep ∧ offers dep p ∧ installed_target_versions dep = [].
Proof.
  rewrite find_run. cbn [snd]. rewrite lookup_mark_all.
  destruct (decide (p ∈ cache_marks cache)) as [Hin|Hin]; [intros _ | by intros []].
  apply elem_of_cache_marks_1 in Hin as (dep & Hs & Hm).
  apply elem_of_dep_marks in Hm as (? & ? & ?). eauto.
Qed.

(** X5.  When [find] returns, the order of the packages in the cache does
    not matter: on a cache with the same packages in another order it
    returns too, with the same marks. *)
Theorem find_permutation cache cache' w :
  cache ≡ₚ cache' →
  (find cache w).1 = Ok tt →
  find cache' w = find cache w.
Proof.
  intros Hperm. rewrite !find_run. cbn [fst]. intros Hok.
  assert (cache_result cache' = Ok tt) as Hok'.
  { apply cache_result_Ok. intros p Hp. rewrite <- Hperm in Hp.
    revert p Hp. by apply cache_result_Ok. }
  rewrite Hok, Hok'. f_equal. apply mark_all_ext. intros p.
  rewrite !cache_marks_Ok by done. by rewrite Hperm.
Qed.

(** ** [sorted] sorts *)

Section Sorted.

Context {A : Type} (lt : A → A → bool).

Lemma insert_sorted_Permutation x l : Py.insert_sorted lt x l ≡ₚ x :: l.
Proof.
  induction l as [|y l IH]; cbn [Py.insert_sorted]; [done|].
  destruct (lt x y); [done|]. rewrite IH. apply Permutation_swap.
Qed.

Lemma sorted_acc_Permutation acc l :
  foldl (λ acc x, Py.insert_sorted lt x acc) acc l ≡ₚ acc ++ l.
Proof.
  revert acc. induction l as [|x l IH]; intros acc; cbn [foldl].
  - by rewrite app_nil_r.
  - rewrite IH, insert_sorted_Permutation. apply (Permutation_middle acc l x).
Qed.

Lemma sorted_Permutation l : Py.sorted lt l ≡ₚ l.
Proof. apply (sorted_acc_Permutation [] l). Qed.

Context (R : relation A).
Hypothesis lt_R : ∀ x y, lt x y = true → R x y.
Hypothesis not_lt_R : ∀ x y, lt x y = false → R y x.

Lemma insert_sorted_HdRel x y l :
  R y x → HdRel R y l → HdRel R y (Py.insert_sorted lt x l).
Proof.
  intros Hyx Hl. destruct l as [|z l]; cbn [Py.insert_sorted].
  - by constructor.
  - destruct (lt x z); constructor; [done|]. by inversion Hl.
Qed.

Lemma insert_sorted_Sorted x l : Sorted R l → Sorted R (Py.insert_sorted lt x l).
Proof.
  induction 1 as [|y l Hl IH Hhd]; cbn [Py.insert_sorted].
  - by repeat constructor.
  - destruct (lt x y) eqn:E.
    + constructor; [by constructor|]. constructor. by apply lt_R.
    + constructor; [done|]. apply insert_sorted_HdRel; [by apply not_lt_R | done].
Qed.

Lemma sorted_acc_Sorted acc l :
  Sorted R acc → Sorted R (foldl (λ acc x, Py.insert_sorted lt x acc) acc l).
Proof.
  revert acc. induction l as [|x l IH]; intros acc Hacc; cbn [foldl]; [done|].
  by apply IH, insert_sorted_Sorted.
Qed.

Lemma sorted_Sorted l : Sorted R (Py.sorted lt l).
Proof. apply (sorted_acc_Sorted [] l). constructor. Qed.

End Sorted.

Lemma ltb_le (s1 s2 : string) : String.ltb s1 s2 = true → String.le s1 s2.
Proof.
  unfold String.le, String.leb, String.ltb.
  destruct (String.compare s1 s2); intros H; first [discriminate H | exact I].
Qed.

Lemma not_ltb_le (s1 s2 : string) : String.ltb s1 s2 = false → String.le s2 s1.
Proof.
  unfold String.le, String.leb, String.ltb.
  rewrite (String.compare_antisym s1 s2).
  destruct (String.compare s2 s1); intros H; first [discriminate H | exact I].
Qed.

(** ** Further properties of [describe] *)

(** The run of [describe], case by case. *)
Lemma describe_run textwrap_fill cache prompt dc sin sout com :
  describe textwrap_fill cache prompt (mkWorld dc sin sout com) =
  match pending cache dc with
  | [] =>
      (Ok false,
       mkWorld dc sin (sout +:+ "All documentation packages are installed." +:+ Py.nl) com)
  | _ :: _ =>
      let out :=
        (sout +:+ "The following documentation packages will be installed:" +:+ Py.nl) +:+
        textwrap_fill
          (Py.join " "
             (name <$> Py.sorted (λ p q, String.ltb (name p) (name q)) (pending cache dc)))
        +:+ Py.nl in
      if prompt then
        match sin with
        | [] => (Raise EOFError, mkWorld dc [] (out +:+ "Do you want to continue? [Y/n] ") com)
        | line :: rest =>
            if String.eqb (Py.lower line) "" || Py.startswith (Py.lower line) "y"
            then (Ok true, mkWorld dc rest (out +:+ "Do you want to continue? [Y/n] ") com)
            else (Ok false,
                  mkWorld dc rest
                    ((out +:+ "Do you want to continue? [Y/n] ") +:+ "Abort." +:+ Py.nl) com)
        end
      else (Ok false, mkWorld dc sin out com)
  end.
Proof.
  unfold pending. unfold_describe. simpl.
  destruct (filter _ _) as [|p l] eqn:E; simpl; [done|].
  destruct prompt; simpl; rewrite E; [|done].
  destruct sin as [|line rest]; simpl; [done|].
  by destruct (_ || _).
Qed.

(** X6.  When there are pending changes, [describe] without prompt prints
    the heading and then the names of the pending packages, each as often
    as [get_changes] has it, in ascending order and joined by single
    spaces before they are wrapped; it returns false and leaves standard
    input and the cache alone. *)
Theorem describe_lists_sorted textwrap_fill cache w changes :
  (get_changes cache w).1 = Ok changes →
  changes ≠ [] →
  ∃ names,
    names ≡ₚ name <$> changes
    ∧ Sorted String.le names
    ∧ describe textwrap_fill cache false w
      = (Ok false,
         mkWorld (depcache w) (stdin w)
           ((stdout w +:+ "The following documentation packages will be installed:" +:+ Py.nl)
            +:+ textwrap_fill (Py.join " " names) +:+ Py.nl)
           (committed w)).
Proof.
  destruct w as [dc sin sout com]. unfold get_changes. cbn [fst depcache].
  intros [= <-] Hne. fold (pending cache dc) in *.
  exists (name <$> Py.sorted (λ p q, String.ltb (name p) (name q)) (pending cache dc)).
  split; [|split].
  - by rewrite sorted_Permutation.
  - apply (Sorted_fmap name (λ p q, String.le (name p) (name q)) String.le); [done|].
    apply sorted_Sorted; intros p q; [apply ltb_le | apply not_ltb_le].
  - rewrite describe_run. by destruct (pending cache dc).
Qed.

(** X7.  When [describe] has to ask and standard input is at its end, it
    raises [EOFError]; by then it has printed the list as without prompt
    and the question, and the cache is as before. *)
Theorem describe_eof textwrap_fill cache w :
  stdin w = [] →
  (get_changes cache w).1 ≠ Ok [] →
  (describe textwrap_fill cache true w).1 = Raise EOFError
  ∧ stdout (describe textwrap_fill cache true w).2
    = stdout (describe textwrap_fill cache false w).2 +:+ "Do you want to continue? [Y/n] "
  ∧ depcache (describe textwrap_fill cache true w).2 = depcache w
  ∧ committed (describe textwrap_fill cache true w).2 = committed w.
Proof.
  destruct w as [dc sin sout com]. unfold get_changes. cbn [fst depcache stdin].
  intros -> Hne. fold (pending cache dc) in Hne. rewrite !describe_run.
  by destruct (pending cache dc).
Qed.

(** X8.  When [describe] asks, it reads exactly one line.  It has printed
    the list as without prompt and the question; it prints [Abort.] after
    them exactly when it returns false. *)
Theorem describe_asks_once textwrap_fill cache w line rest :
  stdin w = line :: rest →
  (get_changes cache w).1 ≠ Ok [] →
  stdin (describe textwrap_fill cache true w).2 = rest
  ∧ ((describe textwrap_fill cache true w).1 = Ok true
     ∧ stdout (describe textwrap_fill cache true w).2
       = stdout (describe textwrap_fill cache false w).2
         +:+ "Do you want to continue? [Y/n] "
     ∨ (describe textwrap_fill cache true w).1 = Ok false
       ∧ stdout (describe textwrap_fill cache true w).2
         = (stdout (describe textwrap_fill cache false w).2
            +:+ "Do you want to continue? [Y/n] ") +:+ "Abort." +:+ Py.nl).
Proof.
  destruct w as [dc sin sout com]. unfold get_changes. cbn [fst depcache stdin].
  intros -> Hne. fold (pending cache dc) in Hne. rewrite !describe_run.
  destruct (pending cache dc); [done|]. cbv zeta.
  destruct (_ || _); cbn [fst snd stdin stdout]; auto.
Qed.

(** ** Further properties of [main] *)

(** The run of [main] when the command line asks for one. *)
Lemma main_run textwrap_fill parse_commandline cache argv config w :
  asks_run (parse_commandline argv) config →
  main textwrap_fill parse_commandline cache argv w =
  match find cache (mkWorld ∅ (stdin w) (stdout w) (committed w)) with
  | (Raise e, w1) => (Raise e, w1)
  | (Ok _, w1) =>
      match describe textwrap_fill cache
              (negb (find_b config "APT::InstallDocs::DryRun")) w1 with
      | (Raise e, w2) => (Raise e, w2)
      | (Ok false, w2) => (Ok 0, w2)
      | (Ok true, w2) =>
          (Ok 0,
           mkWorld (depcache w2) (stdin w2) (stdout w2)
                   (committed w2 ++ [pending cache (depcache w2)]))
      end
  end.
Proof.
  intros (Hparse & Hhelp & Hversion). unfold main, bind, lift, Cache_open.
  rewrite Hparse. cbn [fst snd Py.truthy orb]. rewrite Hhelp, Hversion.
  destruct (find cache _) as [[[]|e] w1]; [|done].
  destruct (describe _ _ _ w1) as [[[]|e] w2]; done.
Qed.





(** X10.  A dry run installs nothing and asks nothing: when the command
    line asks for a run and [APT::InstallDocs::DryRun] is set, the list of
    committed change sets and standard input are the same after [main] as
    before, whether [main] returns or raises. *)
Theorem main_dry_run textwrap_fill parse_commandline cache argv config w :
  asks_run (parse_commandline argv) config →
  find_b config "APT::InstallDocs::DryRun" = true →
  committed (main textwrap_fill parse_commandline cache argv w).2 = committed w
  ∧ stdin (main textwrap_fill parse_commandline cache argv w).2 = stdin w.
Proof.
  intros Hrun Hdry. rewrite (main_run _ _ _ _ config _ Hrun), Hdry, find_run.
  cbn [negb]. destruct (cache_result cache) as [[]|e]; [|done].
  unfold mark_all. cbn [depcache stdin stdout committed].
  rewrite describe_run. by destruct (pending _ _).
Qed.




(** X14.  The test for a documentation package is exact and case
    sensitive: the target of a relation is marked when its short name is
    some text followed by [-doc], and the scan of a target with any other
    short name changes nothing. *)
Theorem find_target_suffix dvers w :
  ((∃ stem, shortname (package dvers) = stem +:+ "-doc") →
   find_target dvers w = mark_install (package dvers) false w)
  ∧ ((∀ stem, shortname (package dvers) ≠ stem +:+ "-doc") →
     find_target dvers w = (Ok tt, w)).
Proof.
  unfold find_target. split.
  - intros Hstem. apply endswith_spec in Hstem. by rewrite Hstem.
  - intros Hnone. destruct (Py.endswith _ _) eqn:E; [|done].
    apply endswith_spec in E as [stem Hstem]. by destruct (Hnone stem).
Qed.

(** ** The further theorems at work *)




Lemma find_stops_at_missing_version_witness :
  (find Scenario.cache Scenario.opened).1 = Ok tt
  ∧ installed Cases.make_damaged = Some (Scenario.doc_version "4.3-4")
  ∧ find (Scenario.cache ++ [Cases.make_damaged]) Scenario.opened
    = (Raise (KeyError "4.3-4"), Scenario.scanned).
Proof.
  assert ((find Scenario.cache Scenario.opened).1 = Ok tt) as H1
    by (vm_compute; reflexivity).
  assert (installed Cases.make_damaged = Some (Scenario.doc_version "4.3-4")) as H2
    by reflexivity.
  split; [exact H1|]. split; [exact H2|].
  apply (find_stops_at_missing_version Scenario.cache Cases.make_damaged []
           (Scenario.doc_version "4.3-4") Scenario.opened H1 H2).
  intros v Hv. elements_of Hv. discriminate.
Defined.

Lemma find_changes_only_doc_witness :
  depcache (find Scenario.cache Scenario.opened).2 !! Scenario.augeas_doc
  ≠ depcache Scenario.opened !! Scenario.augeas_doc
  ∧ ∃ dep, suggested_by Scenario.cache dep ∧ offers dep Scenario.augeas_doc ∧
           installed_target_versions dep = [].
Proof.
  assert (depcache (find Scenario.cache Scenario.opened).2 !! Scenario.augeas_doc
          ≠ depcache Scenario.opened !! Scenario.augeas_doc) as H
    by (vm_compute; discriminate).
  split; [exact H|].
  apply (find_changes_only_doc Scenario.cache Scenario.opened Scenario.augeas_doc H).
Defined.

Lemma find_permutation_witness :
  Scenario.cache ≡ₚ Cases.cache_backwards
  ∧ (find Scenario.cache Scenario.opened).1 = Ok tt
  ∧ find Cases.cache_backwards Scenario.opened = (Ok tt, Scenario.scanned).
Proof.
  assert (Scenario.cache ≡ₚ Cases.cache_backwards) as H1
    by (symmetry; apply reverse_Permutation).
  assert ((find Scenario.cache Scenario.opened).1 = Ok tt) as H2
    by (vm_compute; reflexivity).
  split; [exact H1|]. split; [exact H2|].
  apply (find_permutation Scenario.cache Cases.cache_backwards Scenario.opened H1 H2).
Defined.

Lemma describe_lists_sorted_witness :
  (get_changes Cases.cache_backwards Cases.two_pending).1
  = Ok [Scenario.gcc_doc; Scenario.augeas_doc]
  ∧ ∃ names,
      names ≡ₚ ["gcc-doc"; "augeas-doc"]
      ∧ Sorted String.le names
      ∧ describe Scenario.fill Cases.cache_backwards false Cases.two_pending
        = (Ok false,
           mkWorld (depcache Cases.two_pending) [] 
             (("" +:+ "The following documentation packages will be installed:" +:+ Py.nl)
              +:+ Scenario.fill (Py.join " " names) +:+ Py.nl)
             []).
Proof.
  assert ((get_changes Cases.cache_backwards Cases.two_pending).1
          = Ok [Scenario.gcc_doc; Scenario.augeas_doc]) as H
    by (vm_compute; reflexivity).
  split; [exact H|].
  apply (describe_lists_sorted Scenario.fill Cases.cache_backwards Cases.two_pending
           [Scenario.gcc_doc; Scenario.augeas_doc] H).
  discriminate.
Defined.

(** The list that the user sees. *)
Example describe_two_pending :
  stdout (describe Scenario.fill Cases.cache_backwards false Cases.two_pending).2
  = "The following documentation packages will be installed:" +:+ Py.nl +:+
    "  augeas-doc gcc-doc" +:+ Py.nl.
Proof. vm_compute. reflexivity. Qed.

Lemma describe_eof_witness :
  stdin Cases.scanned_at_eof = []
  ∧ (get_changes Scenario.cache Cases.scanned_at_eof).1 ≠ Ok []
  ∧ (describe Scenario.fill Scenario.cache true Cases.scanned_at_eof).1 = Raise EOFError.
Proof.
  assert (stdin Cases.scanned_at_eof = []) as H1 by reflexivity.
  assert ((get_changes Scenario.cache Cases.scanned_at_eof).1 ≠ Ok []) as H2
    by (vm_compute; discriminate).
  split; [exact H1|]. split; [exact H2|].
  apply (describe_eof Scenario.fill Scenario.cache Cases.scanned_at_eof H1 H2).
Defined.

Lemma describe_asks_once_witness :
  stdin Cases.scanned_no = ["no"; "y"]
  ∧ (get_changes Scenario.cache Cases.scanned_no).1 ≠ Ok []
  ∧ stdin (describe Scenario.fill Scenario.cache true Cases.scanned_no).2 = ["y"].
Proof.
  assert (stdin Cases.scanned_no = ["no"; "y"]) as H1 by reflexivity.
  assert ((get_changes Scenario.cache Cases.scanned_no).1 ≠ Ok []) as H2
    by (vm_compute; discriminate).
  split; [exact H1|]. split; [exact H2|].
  apply (describe_asks_once Scenario.fill Scenario.cache Cases.scanned_no "no" ["y"] H1 H2).
Defined.

(** The user declines: the answer is read, [Abort.] is printed, nothing is
    committed. *)
Example main_declined :
  main Scenario.fill (Cases.parse_run false) Scenario.cache ["apt-install-docs"]
       Cases.scanned_no
  = (Ok 0,
     mkWorld {[ Scenario.augeas_doc := mkStateCache ModeInstall true ]} ["y"]
       ("The following documentation packages will be installed:" +:+ Py.nl +:+
        "  augeas-doc" +:+ Py.nl +:+
        "Do you want to continue? [Y/n] " +:+ "Abort." +:+ Py.nl)
       []).
Proof. vm_compute. reflexivity. Qed.

Lemma main_dry_run_witness :
  asks_run (Cases.parse_run true ["apt-install-docs"; "-n"]) (Cases.run_requested true)
  ∧ find_b (Cases.run_requested true) "APT::InstallDocs::DryRun" = true
  ∧ committed (main Scenario.fill (Cases.parse_run true) Scenario.cache
                 ["apt-install-docs"; "-n"] Scenario.opened).2 = []
  ∧ stdin (main Scenario.fill (Cases.parse_run true) Scenario.cache
             ["apt-install-docs"; "-n"] Scenario.opened).2 = ["Yes"].
Proof.
  assert (asks_run (Cases.parse_run true ["apt-install-docs"; "-n"])
            (Cases.run_requested true)) as H1 by (repeat split; reflexivity).
  assert (find_b (Cases.run_requested true) "APT::InstallDocs::DryRun" = true) as H2
    by reflexivity.
  split; [exact H1|]. split; [exact H2|].
  apply (main_dry_run Scenario.fill (Cases.parse_run true) Scenario.cache
           ["apt-install-docs"; "-n"] (Cases.run_requested true) Scenario.opened H1 H2).
Defined.



Lemma find_target_suffix_witness :
  shortname (package Scenario.augeas_doc_1_12) = "augeas" +:+ "-doc"
  ∧ find_target Scenario.augeas_doc_1_12 Scenario.opened = (Ok tt, Scenario.scanned)
  ∧ find_target (mkTargetVersion (mkPackage "Augeas-DOC" "Augeas-DOC") "1" false)
      Scenario.opened = (Ok tt, Scenario.opened).
Proof.
  assert (shortname (package Scenario.augeas_doc_1_12) = "augeas" +:+ "-doc") as H
    by reflexivity.
  split; [exact H|]. split.
  - rewrite (proj1 (find_target_suffix Scenario.augeas_doc_1_12 Scenario.opened)
               (ex_intro _ "augeas" H)).
    vm_compute. reflexivity.
  - apply (find_target_suffix
             (mkTargetVersion (mkPackage "Augeas-DOC" "Augeas-DOC") "1" false)
             Scenario.opened).
    intros stem Hstem. cbn [shortname package] in Hstem.
    assert (Py.endswith "Augeas-DOC" "-doc" = true) as Hends
      by (apply endswith_spec; by exists stem).
    vm_compute in Hends. discriminate Hends.
Defined.
